(** * grafanaclient: the dashboard document model and the HTTP session

    A shallow embedding of [grafana/api.go].  The document model (the
    [GetDefault...] constructors and the two dashboard mutators) is pure and is
    embedded as plain functions over records.  The session operations talk to
    the network through [net/http] and [encoding/json]; they are embedded in a
    small state monad over a [World] that records every request handed to the
    HTTP client, with the behaviour of the two Go packages supplied by a
    [Platform] instance.

    Conventions.
    - Go [int] fields hold small constants only and are modelled as [Z].
    - A slice [[]T] is modelled as [list T]; [append(s, x)] is [s ++ [x]].
      A nil slice and a slice made with [make([]T, 0)] both have length 0 and
      are both the empty list here (they differ only under [json.Marshal]).
    - [interface{}] fields are opaque pass-through values ([any]). *)

From Stdlib Require Import String Ascii List ZArith Bool Lia.
From Stdlib Require Import DecimalString DecimalZ DecimalPos.
Import ListNotations.
Open Scope string_scope.
Open Scope Z_scope.

(** ** Strings *)

(** The double-quote character, code 34. *)
Definition dquote : string := String (ascii_of_nat 34) EmptyString.

(** ** Error type *)

Record GrafanaError := mkGrafanaError {
  Code : Z;
  Description : string
}.

Record GrafanaMessage := mkGrafanaMessage {
  Message : string
}.

(** A value of Go's [error] interface as this package produces it: either a
    [GrafanaError] built by [httpRequest], or an error value handed back by
    [encoding/json]. *)
Inductive error :=
| GrafanaErr (e : GrafanaError)
| JsonErr (msg : string).

(** ** Document model: types *)

(** An [interface{}] value: nil, or some decoded JSON kept as it came. *)
Inductive any :=
| any_nil
| any_json (raw : string).

Record Meta := mkMeta {
  Created : string;
  Expires : string;
  IsHome : bool;
  IsSnapshot : bool;
  IsStarred : bool;
  Slug : string
}.

Record Time := mkTime {
  From : string;
  To : string
}.

Record Timepicker := mkTimepicker {
  RefreshIntervals : list string;
  TimeOptions : list string
}.

Record Legend := mkLegend {
  Avg : bool;
  Current : bool;
  Max : bool;
  Min : bool;
  Show : bool;
  Total : bool;
  Values : bool
}.

(** The anonymous struct of [Target.GroupBy] and [Target.Select]. *)
Record QueryPart := mkQueryPart {
  Params : list string;
  PartType : string
}.

Record Target := mkTarget {
  DsType : string;
  GroupBy : list QueryPart;
  Measurement : string;
  Policy : string;
  Query : string;
  RawQuery : bool;
  RefID : string;
  ResultFormat : string;
  Select : list (list QueryPart);
  TargetTags : list any
}.

Record Tooltip := mkTooltip {
  Shared : bool;
  TooltipSort : Z;
  ValueType : string
}.

Record Xaxis := mkXaxis {
  Mode : string;
  XName : any;
  XShow : bool;
  XValues : list any
}.

Record Yaxes := mkYaxes {
  Format : string;
  YLabel : any;
  LogBase : Z;
  YMax : any;
  YMin : any;
  YShow : bool
}.

Record Panel := mkPanel {
  Bars : bool;
  PanelDatasource : any;
  Fill : Z;
  PanelID : Z;
  PanelLegend : Legend;
  Lines : bool;
  Linewidth : Z;
  PanelLinks : list any;
  NullPointMode : string;
  Percentage : bool;
  Pointradius : Z;
  Points : bool;
  Renderer : string;
  SeriesOverrides : list any;
  Span : Z;
  Stack : bool;
  SteppedLine : bool;
  Targets : list Target;
  Thresholds : list any;
  TimeFrom : any;
  TimeShift : any;
  PanelTitle : string;
  PanelTooltip : Tooltip;
  PanelType : string;
  PanelXaxis : Xaxis;
  PanelYaxes : list Yaxes
}.

Record Row := mkRow {
  Collapse : bool;
  Height : string;
  Panels : list Panel;
  Repeat : any;
  RepeatIteration : any;
  RepeatRowID : any;
  ShowTitle : bool;
  RowTitle : string;
  TitleSize : string
}.

(** The anonymous struct of [Template.Current]. *)
Record TemplateCurrent := mkTemplateCurrent {
  CurrentTags : list any;
  CurrentText : string;
  CurrentValue : any
}.

(** The anonymous struct of [Template.Options]. *)
Record TemplateOption := mkTemplateOption {
  Selected : bool;
  OptionText : string;
  OptionValue : string
}.

Record Template := mkTemplate {
  TplCurrent : TemplateCurrent;
  Datasource : string;
  Hide : Z;
  IncludeAll : bool;
  Label : string;
  Multi : bool;
  Name : string;
  Options : list TemplateOption;
  TplQuery : string;
  Refresh : Z;
  Regex : string;
  Sort : Z;
  TplType : string;
  UseTags : bool
}.

Record Templating := mkTemplating {
  TemplatingList : list Template
}.

Record Dashboard := mkDashboard {
  Editable : bool;
  GnetID : any;
  GraphTooltip : Z;
  HideControls : bool;
  ID : Z;
  Links : list any;
  Rows : list Row;
  SchemaVersion : Z;
  Style : string;
  Tags : list any;
  DashTemplating : Templating;
  DashTime : Time;
  DashTimepicker : Timepicker;
  Timezone : string;
  Title : string;
  Version : Z
}.

Record DashboardResult := mkDashboardResult {
  ResultMeta : Meta;
  Model : Dashboard
}.

Record UserInfo := mkUserInfo {
  User : string;
  Email : string;
  Password : string
}.

(** ** Document model: default constructors *)

Definition GetDefaultLegend : Legend :=
  {| Avg := false; Current := false; Max := false; Min := false;
     Show := true; Total := false; Values := false |}.

Definition GetDefaultTargets (influxql : string) : list Target :=
  let res : list Target := [] in
  let targets :=
    {| DsType := "influxdb"; GroupBy := []; Measurement := "";
       Policy := "default"; Query := influxql; RawQuery := true;
       RefID := "A"; ResultFormat := "time_series"; Select := [];
       TargetTags := [] |} in
  (res ++ [targets])%list.

Definition GetDefaultToolTip : Tooltip :=
  {| Shared := true; TooltipSort := 0; ValueType := "individual" |}.

Definition GetDefaultXaxis : Xaxis :=
  {| Mode := "time"; XName := any_nil; XShow := true; XValues := [] |}.

Definition GetDefaultYaxes : list Yaxes :=
  let yaxes : list Yaxes := [] in
  let yax :=
    {| Format := "short"; YLabel := any_nil; LogBase := 1;
       YMax := any_nil; YMin := any_nil; YShow := true |} in
  let yaxes := (yaxes ++ [yax])%list in
  let yaxes := (yaxes ++ [yax])%list in
  yaxes.

Definition GetDefaultPanel (title influxql : string) : Panel :=
  {| Bars := false;
     PanelDatasource := any_nil;
     Fill := 1;
     PanelID := 0;
     PanelLegend := GetDefaultLegend;
     Lines := true;
     Linewidth := 1;
     PanelLinks := [];
     NullPointMode := "null";
     Percentage := false;
     Pointradius := 5;
     Points := false;
     Renderer := "flot";
     SeriesOverrides := [];
     Span := 12;
     Stack := false;
     SteppedLine := false;
     Targets := GetDefaultTargets influxql;
     Thresholds := [];
     TimeFrom := any_nil;
     TimeShift := any_nil;
     PanelTitle := title;
     PanelTooltip := GetDefaultToolTip;
     PanelType := "graph";
     PanelXaxis := GetDefaultXaxis;
     PanelYaxes := GetDefaultYaxes |}.

(** One row per call, one panel per row. *)
Definition GetDefaultRow (panelTitle influxql : string) : Row :=
  let panels : list Panel := [] in
  let panel := GetDefaultPanel panelTitle influxql in
  {| Collapse := false;
     Height := "250px";
     Panels := (panels ++ [panel])%list;
     Repeat := any_nil;
     RepeatIteration := any_nil;
     RepeatRowID := any_nil;
     ShowTitle := false;
     RowTitle := "";
     TitleSize := "h6" |}.

Definition GetDefaultTemplate (tagName measurementName datasource : string)
  : Template :=
  {| TplCurrent :=
       {| CurrentTags := []; CurrentText := ""; CurrentValue := any_nil |};
     Datasource := datasource;
     Hide := 0;
     IncludeAll := false;
     Label := tagName;
     Multi := true;
     Name := tagName;
     Options := [];
     TplQuery := "SHOW TAG VALUES FROM " ++ dquote ++ measurementName
                 ++ dquote ++ " WITH  KEY = " ++ dquote ++ tagName ++ dquote;
     Refresh := 1;
     Regex := "";
     Sort := 0;
     TplType := "query";
     UseTags := false |}.

(** The [for _, ql := range qls] loop: one [append] per element, in order. *)
Definition GetDefaultTemplates (qls : list string)
  (measurementName datasource : string) : list Template :=
  fold_left
    (fun tpls ql =>
       (tpls ++ [GetDefaultTemplate ql measurementName datasource])%list)
    qls [].

Definition GetDefaultTemplating (tagNames : list string)
  (measurementName datasource : string) : Templating :=
  {| TemplatingList := GetDefaultTemplates tagNames measurementName datasource |}.

Definition GetDefaultDashBoard (dashboardTitle : string) : Dashboard :=
  {| Editable := true;
     GnetID := any_nil;
     GraphTooltip := 0;
     HideControls := false;
     ID := 0;
     Links := [];
     Rows := [];
     SchemaVersion := 14;
     Style := "dark";
     Tags := [];
     DashTemplating := {| TemplatingList := [] |};
     DashTime := {| From := "now-6h"; To := "now" |};
     DashTimepicker :=
       {| RefreshIntervals :=
            ["5s"; "10s"; "30s"; "1m"; "5m"; "15m"; "30m"; "1h"; "2h"; "1d"];
          TimeOptions :=
            ["5m"; "15m"; "1h"; "6h"; "12h"; "24h"; "2d"; "4d"; "7d"; "30d"] |};
     Timezone := "browser";
     Title := dashboardTitle;
     Version := 1 |}.

(** Field updates of a [Dashboard] held by value. *)
Definition set_Rows (db : Dashboard) (rows : list Row) : Dashboard :=
  {| Editable := Editable db; GnetID := GnetID db;
     GraphTooltip := GraphTooltip db; HideControls := HideControls db;
     ID := ID db; Links := Links db; Rows := rows;
     SchemaVersion := SchemaVersion db; Style := Style db; Tags := Tags db;
     DashTemplating := DashTemplating db; DashTime := DashTime db;
     DashTimepicker := DashTimepicker db; Timezone := Timezone db;
     Title := Title db; Version := Version db |}.

Definition set_Templating (db : Dashboard) (tp : Templating) : Dashboard :=
  {| Editable := Editable db; GnetID := GnetID db;
     GraphTooltip := GraphTooltip db; HideControls := HideControls db;
     ID := ID db; Links := Links db; Rows := Rows db;
     SchemaVersion := SchemaVersion db; Style := Style db; Tags := Tags db;
     DashTemplating := tp; DashTime := DashTime db;
     DashTimepicker := DashTimepicker db; Timezone := Timezone db;
     Title := Title db; Version := Version db |}.

(** ** net/http and encoding/json, as far as the session uses them *)

Record Request := mkRequest {
  Method : string;
  URL : string;
  Header : list (string * string);
  Body : option string
}.

Record Response := mkResponse {
  StatusCode : Z;
  ResponseBody : string
}.

(** What [client.Do] hands back: an error and no response, or a response. *)
Inductive DoResult :=
| DoError (msg : string)
| DoResponse (response : Response).

(** The settings [NewSession] gives its [http.Client]: the timeout in seconds
    and whether the transport skips certificate verification. *)
Record Client := mkClient {
  Timeout : Z;
  InsecureSkipVerify : bool
}.

Record Session := mkSession {
  client : Client;
  SessionUser : string;
  SessionPassword : string;
  url : string
}.

(** Everything outside the process that the session can change: the cookies
    in the client's jar and the requests handed to [client.Do], oldest first. *)
Record World := mkWorld {
  jar : list string;
  dispatched : list Request
}.

(** The behaviour of the two Go packages the session calls.
    - [request_ok method url]: [http.NewRequest] accepts the method and can
      parse the URL;
    - [client_Do]: one exchange, which may depend on the cookies and on
      everything dispatched before; it returns the jar after the exchange;
    - [json_string]: the JSON text [json.Marshal] writes for a Go string;
    - [Decode_GrafanaMessage], [Decode_DashboardResult]: [Decoder.Decode] on
      a body, given the value the destination holds before the call; it
      returns the value it holds afterwards and the error, if any. *)
Class Platform := mkPlatform {
  request_ok : string -> string -> bool;
  client_Do : Client -> World -> Request -> DoResult * list string;
  json_string : string -> string;
  Decode_GrafanaMessage :
    string -> GrafanaMessage -> GrafanaMessage * option string;
  Decode_DashboardResult :
    string -> DashboardResult -> DashboardResult * option string
}.

(** ** The monad of session operations: state passing over [World], with
    a run-time panic as the second way out. *)

Inductive outcome (A : Type) :=
| Returned (a : A) (w : World)
| Panicked (w : World).
Arguments Returned {A} a w.
Arguments Panicked {A} w.

Definition M (A : Type) : Type := World -> outcome A.

Definition ret {A : Type} (a : A) : M A := fun w => Returned a w.

Definition bind {A B : Type} (c : M A) (k : A -> M B) : M B :=
  fun w =>
    match c w with
    | Returned a w' => k a w'
    | Panicked w' => Panicked w'
    end.

Definition panic {A : Type} : M A := fun w => Panicked w.

Notation "x <- c ;; k" := (bind c (fun x => k))
  (at level 61, c at next level, right associativity).
Notation "' pat <- c ;; k" := (bind c (fun x => match x with pat => k end))
  (at level 61, pat pattern, c at next level, right associativity).

(** The world after an outcome, whichever way it ended. *)
Definition world_of {A : Type} (o : outcome A) : World :=
  match o with
  | Returned _ w => w
  | Panicked w => w
  end.

(** How many of the requests in a list use a given method. *)
Definition count_method (method : string) (l : list Request) : nat :=
  length (filter (fun r => String.eqb (Method r) method) l).

(** ** Zero values *)

Definition zero_Meta : Meta :=
  {| Created := ""; Expires := ""; IsHome := false; IsSnapshot := false;
     IsStarred := false; Slug := "" |}.

Definition zero_Dashboard : Dashboard :=
  {| Editable := false; GnetID := any_nil; GraphTooltip := 0;
     HideControls := false; ID := 0; Links := []; Rows := [];
     SchemaVersion := 0; Style := ""; Tags := [];
     DashTemplating := {| TemplatingList := [] |};
     DashTime := {| From := ""; To := "" |};
     DashTimepicker := {| RefreshIntervals := []; TimeOptions := [] |};
     Timezone := ""; Title := ""; Version := 0 |}.

Definition zero_DashboardResult : DashboardResult :=
  {| ResultMeta := zero_Meta; Model := zero_Dashboard |}.

Definition zero_GrafanaMessage : GrafanaMessage := {| Message := "" |}.

(** ** Session *)

Definition timeout : Z := 5.

(** [protocolRegexp], the pattern [^https://]. *)
Definition protocolRegexp_MatchString (s : string) : bool :=
  String.prefix "https://" s.

(** The client starts with an empty jar: see [initial_world]. *)
Definition NewSession (user password url : string) : Session :=
  {| client := {| Timeout := timeout;
                  InsecureSkipVerify := protocolRegexp_MatchString url |};
     SessionUser := user; SessionPassword := password; url := url |}.

Definition initial_world : World := {| jar := []; dispatched := [] |}.

(** [json.Marshal] of a [UserInfo]: the three fields in declaration order
    under their wire keys. *)
Definition Marshal_UserInfo `{Platform} (u : UserInfo) : string :=
  "{" ++ dquote ++ "user" ++ dquote ++ ":" ++ json_string (User u)
  ++ "," ++ dquote ++ "email" ++ dquote ++ ":" ++ json_string (Email u)
  ++ "," ++ dquote ++ "password" ++ dquote ++ ":" ++ json_string (Password u)
  ++ "}".

Definition http_NewRequest `{Platform} (method url : string)
  (body : option string) : option Request :=
  if request_ok method url
  then Some {| Method := method; URL := url; Header := []; Body := body |}
  else None.

(** [Header.Set]: the key's entries are replaced by the one given. *)
Definition Header_Set (request : Request) (key value : string) : Request :=
  {| Method := Method request; URL := URL request;
     Header := (key, value)
               :: filter (fun kv => negb (String.eqb (fst kv) key)) (Header request);
     Body := Body request |}.

(** The world after [client.Do] took [request] and left the jar [jar']. *)
Definition after (w : World) (request : Request) (jar' : list string)
  : World :=
  {| jar := jar'; dispatched := (dispatched w ++ [request])%list |}.

(** [s.client.Do(request)]: the request is recorded and the jar replaced. *)
Definition Do `{Platform} (s : Session) (request : Request) : M DoResult :=
  fun w =>
    let (r, jar') := client_Do (client s) w request in
    Returned r (after w request jar').

(** [httpRequest] returns the pair [(result, err)].  The error of
    [http.NewRequest] is overwritten unread; when it is set the request is nil
    and [request.Header.Set] panics. *)
Definition httpRequest `{Platform} (s : Session) (method url : string)
  (body : option string) : M (option string * option error) :=
  match http_NewRequest method url body with
  | None => panic
  | Some request =>
      let request := Header_Set request "Content-Type" "application/json" in
      r <- Do s request ;;
      match r with
      | DoError _ =>
          ret (None,
               Some (GrafanaErr
                       {| Code := 0;
                          Description := "Unable to perform the http request" |}))
      | DoResponse response =>
          if negb (StatusCode response =? 200) then
            let gMess := zero_GrafanaMessage in
            let (gMess, _) :=
              Decode_GrafanaMessage (ResponseBody response) gMess in
            ret (None,
                 Some (GrafanaErr
                         {| Code := StatusCode response;
                            Description := Message gMess |}))
          else ret (Some (ResponseBody response), None)
      end
  end.

Definition Login `{Platform} (s : Session) : M (option error) :=
  let reqURL := url s ++ "/login" in
  let loginInfo :=
    {| User := SessionUser s; Email := ""; Password := SessionPassword s |} in
  let jsonStr := Marshal_UserInfo loginInfo in
  '(_, err) <- httpRequest s "POST" reqURL (Some jsonStr) ;;
  ret err.

Definition Logout (s : Session) : M unit := ret tt.

Definition CreateDashboard (s : Session) (dashboardName : string)
  : Dashboard :=
  GetDefaultDashBoard dashboardName.

Definition AddRowPanel (s : Session) (db : Dashboard)
  (panelTitle influxql : string) : Dashboard :=
  set_Rows db (Rows db ++ [GetDefaultRow panelTitle influxql])%list.

Definition AddTemplating (s : Session) (db : Dashboard)
  (tagNames : list string) (measurementName datasource : string)
  : Dashboard :=
  set_Templating db (GetDefaultTemplating tagNames measurementName datasource).

(** A nil body with a nil error does not come out of [httpRequest]; decoding
    from a nil reader would panic. *)
Definition GetDashboard `{Platform} (s : Session) (name : string)
  : M (DashboardResult * option error) :=
  let dashboard := zero_DashboardResult in
  let reqURL := url s ++ "/api/dashboards/db/" ++ name in
  '(body, err) <- httpRequest s "GET" reqURL None ;;
  match err with
  | Some e => ret (dashboard, Some e)
  | None =>
      match body with
      | None => panic
      | Some b =>
          let (dashboard, err) := Decode_DashboardResult b dashboard in
          ret (dashboard, option_map JsonErr err)
      end
  end.

Definition DeleteDashBoard `{Platform} (s : Session) (dashBoardName : string)
  : M (option error) :=
  '(dashRes, err) <- GetDashboard s dashBoardName ;;
  match err with
  | Some e => ret (Some e)
  | None =>
      let slug := Slug (ResultMeta dashRes) in
      let reqURL := url s ++ "/api/dashboards/db/" ++ slug in
      '(_, err) <- httpRequest s "DELETE" reqURL None ;;
      ret err
  end.

(** ** Errors of the transport *)

(** The error [httpRequest] builds when [client.Do] fails. *)
Definition transport_error : error :=
  GrafanaErr
    {| Code := 0; Description := "Unable to perform the http request" |}.

(** ** The query as the specification words it *)

(** The text [SHOW TAG VALUES FROM "<measurement>" WITH KEY = "<tag>"] of the
    specification, with one space between [WITH] and [KEY]. *)
Definition spec_template_query (measurementName tagName : string) : string :=
  "SHOW TAG VALUES FROM " ++ dquote ++ measurementName ++ dquote
  ++ " WITH KEY = " ++ dquote ++ tagName ++ dquote.

(** The predicate of the version invariant: both numbers are the ones a
    dashboard is created with. *)
Definition created_versions (db : Dashboard) : bool :=
  (SchemaVersion db =? 14) && (Version db =? 1).

(** ** A small service to run the session against

    [demo_platform] stands for one Grafana at [http://grafana:3000]: any
    other host cannot be reached, [POST /login] succeeds and sets a cookie,
    the dashboard [demo] exists under the slug [demo-1], the path [gateway]
    answers 502 with an HTML page, and every other path answers 404 with a
    message envelope.  Its JSON functions agree with [encoding/json] on the
    texts used here: strings that need no escape, and envelopes of exactly
    the form the service sends. *)

Fixpoint strip_prefix (p s : string) : option string :=
  match p, s with
  | EmptyString, _ => Some s
  | String a p', String b s' =>
      if Ascii.eqb a b then strip_prefix p' s' else None
  | String _ _, EmptyString => None
  end.

Definition strip_suffix (p s : string) : option string :=
  let n := (String.length s - String.length p)%nat in
  if (String.length p <=? String.length s)%nat
     && String.eqb (substring n (String.length p) s) p
  then Some (substring 0 n s)
  else None.

Definition message_envelope (m : string) : string :=
  "{" ++ dquote ++ "message" ++ dquote ++ ":" ++ dquote ++ m ++ dquote ++ "}".

Definition demo_base : string := "http://grafana:3000".

Definition demo_request_ok (method url : string) : bool :=
  negb (String.eqb method "") && String.prefix "http" url.

Definition demo_Do (c : Client) (w : World) (r : Request)
  : DoResult * list string :=
  if negb (String.prefix (demo_base ++ "/") (URL r)) then
    (DoError "dial tcp: no such host", jar w)
  else if String.eqb (Method r) "POST"
          && String.eqb (URL r) (demo_base ++ "/login") then
    (DoResponse {| StatusCode := 200;
                   ResponseBody := message_envelope "Logged in" |},
     "grafana_sess" :: jar w)
  else if String.eqb (URL r) (demo_base ++ "/api/dashboards/db/demo") then
    (DoResponse {| StatusCode := 200; ResponseBody := "demo" |}, jar w)
  else if String.eqb (URL r) (demo_base ++ "/api/dashboards/db/demo-1") then
    (DoResponse {| StatusCode := 200;
                   ResponseBody := message_envelope "Dashboard deleted" |},
     jar w)
  else if String.eqb (URL r) (demo_base ++ "/api/dashboards/db/gateway") then
    (DoResponse {| StatusCode := 502;
                   ResponseBody := "<html>Bad Gateway</html>" |}, jar w)
  else
    (DoResponse {| StatusCode := 404;
                   ResponseBody := message_envelope "Dashboard not found" |},
     jar w).

Definition demo_json_string (s : string) : string := dquote ++ s ++ dquote.

Definition demo_Decode_GrafanaMessage (body : string) (g : GrafanaMessage)
  : GrafanaMessage * option string :=
  match strip_prefix ("{" ++ dquote ++ "message" ++ dquote ++ ":" ++ dquote)
          body with
  | None => (g, Some "invalid character looking for beginning of value")
  | Some rest =>
      match strip_suffix (dquote ++ "}") rest with
      | None => (g, Some "unexpected end of JSON input")
      | Some m => ({| Message := m |}, None)
      end
  end.

Definition demo_Decode_DashboardResult (body : string) (d : DashboardResult)
  : DashboardResult * option string :=
  if String.eqb body "demo" then
    ({| ResultMeta :=
          {| Created := Created (ResultMeta d);
             Expires := Expires (ResultMeta d);
             IsHome := false; IsSnapshot := false; IsStarred := false;
             Slug := "demo-1" |};
        Model := GetDefaultDashBoard "demo" |}, None)
  else (d, Some "invalid character looking for beginning of value").

Definition demo_platform : Platform :=
  {| request_ok := demo_request_ok;
     client_Do := demo_Do;
     json_string := demo_json_string;
     Decode_GrafanaMessage := demo_Decode_GrafanaMessage;
     Decode_DashboardResult := demo_Decode_DashboardResult |}.

Definition demo_session : Session := NewSession "admin" "admin" demo_base.

(** The request [httpRequest] dispatches for a method, URL and body. *)
Definition json_request (method url : string) (body : option string)
  : Request :=
  {| Method := method; URL := url;
     Header := [("Content-Type", "application/json")]; Body := body |}.

(** ** The text of an error *)

(** The verb [%d] of [fmt.Sprintf] on an [int]: the decimal digits, after a
    minus sign when the number is negative. *)
Definition Sprintf_d (n : Z) : string :=
  DecimalString.NilZero.string_of_int (Z.to_int n).

(** [GrafanaError.Error]: a Code of zero marks an error that is not an HTTP
    error. *)
Definition Error (h : GrafanaError) : string :=
  if negb (Code h =? 0)
  then "HTTP " ++ Sprintf_d (Code h) ++ ": " ++ Description h
  else "ERROR: " ++ Description h.

(** No character of the string is the given one. *)
Fixpoint lacks (c : ascii) (s : string) : Prop :=
  match s with
  | EmptyString => True
  | String a s' => a <> c /\ lacks c s'
  end.

(** ** Uploading a dashboard *)

Record DashboardUploader := mkDashboardUploader {
  UploadDashboard : Dashboard;
  Overwrite : bool
}.

(** [json.Marshal] on a [DashboardUploader].  The values an [any] field can
    hold here all have a JSON text, so the call has no error to drop. *)
Class Encoder := mkEncoder {
  Marshal_DashboardUploader : DashboardUploader -> string
}.

Definition UpdateDashboard `{Platform} `{Encoder} (s : Session)
  (db : Dashboard) (overwrite : bool) : M (option error) :=
  let reqURL := url s ++ "/api/dashboards/db" in
  let content := {| UploadDashboard := db; Overwrite := overwrite |} in
  let jsonStr := Marshal_DashboardUploader content in
  '(_, err) <- httpRequest s "POST" reqURL (Some jsonStr) ;;
  ret err.

(** ** Sequences of calls, as a caller of the package makes them *)

(** A call of one of the two dashboard mutators. *)
Inductive edit :=
| EditRow (panelTitle influxql : string)
| EditTemplating (tagNames : list string) (measurementName datasource : string).

Definition apply_edit (s : Session) (db : Dashboard) (e : edit) : Dashboard :=
  match e with
  | EditRow p q => AddRowPanel s db p q
  | EditTemplating tags m ds => AddTemplating s db tags m ds
  end.

(** The mutators called one after the other, each on the result of the one
    before. *)
Definition apply_edits (s : Session) (db : Dashboard) (es : list edit)
  : Dashboard :=
  fold_left (apply_edit s) es db.

(** The rows the row edits of a sequence ask for, in their order. *)
Definition rows_of_edits (es : list edit) : list Row :=
  flat_map (fun e => match e with
                     | EditRow p q => [GetDefaultRow p q]
                     | EditTemplating _ _ _ => []
                     end) es.

(** The templating block of the last templating edit of a sequence, or the
    one given when the sequence has none. *)
Definition templating_of_edits (tp : Templating) (es : list edit)
  : Templating :=
  fold_left (fun tp e => match e with
                         | EditRow _ _ => tp
                         | EditTemplating tags m ds =>
                             GetDefaultTemplating tags m ds
                         end) es tp.

(** A row as the package builds it: one panel, of type graph, with one
    target, whose reference is [A], and two Y axes that are the same. *)
Definition row_as_built (r : Row) : Prop :=
  exists panel target yax,
    Panels r = [panel]
    /\ Targets panel = [target]
    /\ RefID target = "A"
    /\ PanelType panel = "graph"
    /\ PanelYaxes panel = [yax; yax].

(** A call of one of the session's network operations. *)
Inductive call :=
| CallLogin
| CallUpdate (db : Dashboard) (overwrite : bool)
| CallGet (name : string)
| CallDelete (name : string).

Definition run_call `{Platform} `{Encoder} (s : Session) (c : call)
  : M unit :=
  match c with
  | CallLogin => _ <- Login s ;; ret tt
  | CallUpdate db overwrite => _ <- UpdateDashboard s db overwrite ;; ret tt
  | CallGet name => _ <- GetDashboard s name ;; ret tt
  | CallDelete name => _ <- DeleteDashBoard s name ;; ret tt
  end.

(** The calls made one after the other, whatever each of them returns. *)
Fixpoint run_calls `{Platform} `{Encoder} (s : Session) (cs : list call)
  : M unit :=
  match cs with
  | [] => ret tt
  | c :: cs' => _ <- run_call s c ;; run_calls s cs'
  end.

(** The call is a [DeleteDashBoard]. *)
Definition call_deletes (c : call) : bool :=
  match c with
  | CallDelete _ => true
  | _ => false
  end.

(** The request does not use the method DELETE. *)
Definition not_DELETE (r : Request) : bool :=
  negb (String.eqb (Method r) "DELETE").

(** A request as this session sends them: JSON content type, one of the
    three methods, and a URL under the session's base URL. *)
Definition session_request (s : Session) (r : Request) : bool :=
  match Header r with
  | [(k, v)] => String.eqb k "Content-Type" && String.eqb v "application/json"
  | _ => false
  end
  && (String.eqb (Method r) "GET" || String.eqb (Method r) "POST"
      || String.eqb (Method r) "DELETE")
  && String.prefix (url s ++ "/") (URL r).

(** A computation that, from any world, only adds requests to the log, and
    only ones that satisfy [good]. *)
Definition emits_only {A : Type} (good : Request -> bool) (c : M A) : Prop :=
  forall w, exists l,
    dispatched (world_of (c w)) = (dispatched w ++ l)%list
    /\ forallb good l = true.

(** An encoder for the demo service that writes the title of the dashboard
    and the overwrite flag, and leaves the other fields out. *)
Definition demo_encoder : Encoder :=
  {| Marshal_DashboardUploader := fun u =>
       "{" ++ dquote ++ "dashboard" ++ dquote ++ ":{"
       ++ dquote ++ "title" ++ dquote ++ ":"
       ++ demo_json_string (Title (UploadDashboard u)) ++ "},"
       ++ dquote ++ "overwrite" ++ dquote ++ ":"
       ++ (if Overwrite u then "true" else "false") ++ "}" |}.

(** ** encoding/json on flat objects

    [flat_Decode_GrafanaMessage] is [Decoder.Decode] into a [GrafanaMessage]
    on the bodies it covers: one JSON object, written without white space,
    whose members have keys and string values without escapes, or
    non-negative whole numbers as values.  On these it does what
    [encoding/json] does: the whole value is scanned first, and a body that
    is not well formed is an error with nothing stored; then the members are
    stored in their order, a string under the key [message] (in any case of
    letters) into the field, and a number under that key is a type error
    that is kept, the first one, while the members after it are still
    stored.  Any other body is reported as not well formed. *)

Inductive flat_value :=
| FlatString (text : string)
| FlatNumber (digits : string).

Definition is_digit (c : ascii) : bool :=
  (48 <=? nat_of_ascii c)%nat && (nat_of_ascii c <=? 57)%nat.

Definition lower (c : ascii) : ascii :=
  if (65 <=? nat_of_ascii c)%nat && (nat_of_ascii c <=? 90)%nat
  then ascii_of_nat (nat_of_ascii c + 32)
  else c.

Fixpoint lower_string (s : string) : string :=
  match s with
  | EmptyString => EmptyString
  | String c s' => String (lower c) (lower_string s')
  end.

(** The characters up to the closing quote, and what follows it. *)
Fixpoint scan_string (s : string) : option (string * string) :=
  match s with
  | EmptyString => None
  | String c rest =>
      if Ascii.eqb c (ascii_of_nat 34) then Some (EmptyString, rest)
      else if Ascii.eqb c (ascii_of_nat 92) || (nat_of_ascii c <? 32)%nat
      then None
      else match scan_string rest with
           | Some (text, rest') => Some (String c text, rest')
           | None => None
           end
  end.

(** The digits at the front, and what follows them. *)
Fixpoint scan_digits (s : string) : string * string :=
  match s with
  | EmptyString => (EmptyString, EmptyString)
  | String c rest =>
      if is_digit c
      then let (digits, rest') := scan_digits rest in (String c digits, rest')
      else (EmptyString, s)
  end.

Definition scan_value (s : string) : option (flat_value * string) :=
  match s with
  | EmptyString => None
  | String c rest =>
      if Ascii.eqb c (ascii_of_nat 34) then
        match scan_string rest with
        | Some (text, rest') => Some (FlatString text, rest')
        | None => None
        end
      else if is_digit c then
        let (digits, rest') := scan_digits s in
        if Ascii.eqb c "0" && (1 <? String.length digits)%nat
        then None
        else Some (FlatNumber digits, rest')
      else None
  end.

(** The members after the opening brace, up to the closing one. *)
Fixpoint scan_members (fuel : nat) (s : string)
  : option (list (string * flat_value)) :=
  match fuel with
  | O => None
  | S fuel' =>
      match s with
      | String c rest =>
          if Ascii.eqb c (ascii_of_nat 34) then
            match scan_string rest with
            | Some (key, String colon rest1) =>
                if Ascii.eqb colon ":" then
                  match scan_value rest1 with
                  | Some (v, String c2 rest2) =>
                      if Ascii.eqb c2 "," then
                        match scan_members fuel' rest2 with
                        | Some ms => Some ((key, v) :: ms)
                        | None => None
                        end
                      else if Ascii.eqb c2 "}" then Some [(key, v)]
                      else None
                  | _ => None
                  end
                else None
            | _ => None
            end
          else None
      | EmptyString => None
      end
  end.

(** The first JSON value of the body, when it is a flat object; what
    follows the value in the stream is left unread. *)
Definition scan_object (body : string)
  : option (list (string * flat_value)) :=
  match body with
  | String c rest =>
      if Ascii.eqb c "{" then
        match rest with
        | String c' _ =>
            if Ascii.eqb c' "}" then Some []
            else scan_members (String.length rest) rest
        | EmptyString => None
        end
      else None
  | EmptyString => None
  end.

Definition unmarshal_type_error : string :=
  "json: cannot unmarshal number into Go struct field GrafanaMessage.message of type string".

(** One member stored into the destination; the first error is kept. *)
Definition store_member (st : GrafanaMessage * option string)
  (m : string * flat_value) : GrafanaMessage * option string :=
  let (g, err) := st in
  let (key, v) := m in
  if String.eqb (lower_string key) "message" then
    match v with
    | FlatString text => ({| Message := text |}, err)
    | FlatNumber _ =>
        (g, match err with
            | Some e => Some e
            | None => Some unmarshal_type_error
            end)
    end
  else (g, err).

Definition flat_Decode_GrafanaMessage (body : string) (g : GrafanaMessage)
  : GrafanaMessage * option string :=
  match scan_object body with
  | None => (g, Some "json: syntax error")
  | Some ms => fold_left store_member ms (g, None)
  end.

(** A service that answers every request with status 409 and a body in
    which the key [message] comes twice, first with a string and then with
    a number. *)
Definition conflict_body : string :=
  "{" ++ dquote ++ "message" ++ dquote ++ ":" ++ dquote ++ "a" ++ dquote
  ++ "," ++ dquote ++ "message" ++ dquote ++ ":5}".

Definition conflict_Do (c : Client) (w : World) (r : Request)
  : DoResult * list string :=
  (DoResponse {| StatusCode := 409; ResponseBody := conflict_body |}, jar w).

Definition conflict_platform : Platform :=
  {| request_ok := demo_request_ok;
     client_Do := conflict_Do;
     json_string := demo_json_string;
     Decode_GrafanaMessage := flat_Decode_GrafanaMessage;
     Decode_DashboardResult := demo_Decode_DashboardResult |}.

(** * Properties of the document model *)

Section DocumentModel.

Variable s : Session.

(** The loop of [GetDefaultTemplates] builds the templates front to back. *)
Lemma GetDefaultTemplates_loop (m ds : string) (qls : list string) :
  forall acc : list Template,
    fold_left (fun tpls ql => (tpls ++ [GetDefaultTemplate ql m ds])%list)
      qls acc
    = (acc ++ map (fun ql => GetDefaultTemplate ql m ds) qls)%list.
Proof.
  induction qls as [|ql qls IH]; intros acc; simpl.
  - now rewrite app_nil_r.
  - rewrite IH, <- app_assoc. reflexivity.
Qed.

Lemma GetDefaultTemplates_map (qls : list string) (m ds : string) :
  GetDefaultTemplates qls m ds
  = map (fun ql => GetDefaultTemplate ql m ds) qls.
Proof. unfold GetDefaultTemplates. now rewrite GetDefaultTemplates_loop. Qed.

Lemma AddRowPanel_Rows (d : Dashboard) (p q : string) :
  Rows (AddRowPanel s d p q) = (Rows d ++ [GetDefaultRow p q])%list.
Proof. reflexivity. Qed.

Lemma AddTemplating_list (d : Dashboard) (tags : list string)
  (m ds : string) :
  TemplatingList (DashTemplating (AddTemplating s d tags m ds))
  = map (fun n => GetDefaultTemplate n m ds) tags.
Proof. simpl. apply GetDefaultTemplates_map. Qed.

(** C1, as the code has it: for every tag name [n], measurement [m] and
    datasource [d], the template of [GetDefaultTemplate] has the query
    [SHOW TAG VALUES FROM "m" WITH  KEY = "n"], with two spaces between
    [WITH] and [KEY]; its Name and Label are [n], Multi is true, IncludeAll
    is false and Type is ["query"]. *)
Theorem GetDefaultTemplate_fields (n m d : string) :
  let tpl := GetDefaultTemplate n m d in
  TplQuery tpl
  = "SHOW TAG VALUES FROM " ++ dquote ++ m ++ dquote
    ++ " WITH  KEY = " ++ dquote ++ n ++ dquote
  /\ Name tpl = n
  /\ Label tpl = n
  /\ Multi tpl = true
  /\ IncludeAll tpl = false
  /\ TplType tpl = "query".
Proof. cbv zeta. repeat split. Qed.

(** C5: [AddRowPanel] appends.  The returned dashboard has one row more
    than [d], its first [len(d.Rows)] rows are the rows of [d] in their
    order, and the row after them, the last one, is the default row for
    the panel title and query. *)
Theorem AddRowPanel_appends (d : Dashboard) (p q : string) :
  let d' := AddRowPanel s d p q in
  length (Rows d') = (length (Rows d) + 1)%nat
  /\ firstn (length (Rows d)) (Rows d') = Rows d
  /\ nth_error (Rows d') (length (Rows d)) = Some (GetDefaultRow p q)
  /\ last (Rows d') (GetDefaultRow EmptyString EmptyString)
     = GetDefaultRow p q.
Proof.
  cbv zeta. rewrite AddRowPanel_Rows. repeat split.
  - rewrite length_app. reflexivity.
  - rewrite firstn_app, Nat.sub_diag, firstn_all. simpl. apply app_nil_r.
  - rewrite nth_error_app2, Nat.sub_diag by lia. reflexivity.
  - apply last_last.
Qed.

(** C6: [AddTemplating] replaces the templating block.  After two calls
    the list holds exactly the templates generated from the second call's
    tag names, one per name and in their order; every one of them is named
    by a tag of the second call, and the dashboard is the one a single call
    with the second arguments gives, whatever the first call was given. *)
Theorem AddTemplating_replaces (d : Dashboard)
  (tags1 : list string) (m1 ds1 : string)
  (tags2 : list string) (m2 ds2 : string) :
  let d2 := AddTemplating s (AddTemplating s d tags1 m1 ds1) tags2 m2 ds2 in
  TemplatingList (DashTemplating d2)
  = map (fun n => GetDefaultTemplate n m2 ds2) tags2
  /\ length (TemplatingList (DashTemplating d2)) = length tags2
  /\ map Name (TemplatingList (DashTemplating d2)) = tags2
  /\ d2 = AddTemplating s d tags2 m2 ds2.
Proof.
  cbv zeta. rewrite AddTemplating_list. repeat split.
  - apply length_map.
  - rewrite map_map. simpl. apply map_id.
Qed.

(** C7: for every title [t], [GetDefaultDashBoard t] has Title [t], no
    rows, SchemaVersion 14, Style ["dark"] and the time range from
    ["now-6h"] to ["now"]. *)
Theorem GetDefaultDashBoard_fields (t : string) :
  let db := GetDefaultDashBoard t in
  Title db = t
  /\ Rows db = []
  /\ length (Rows db) = 0%nat
  /\ SchemaVersion db = 14
  /\ Style db = "dark"
  /\ From (DashTime db) = "now-6h"
  /\ To (DashTime db) = "now".
Proof. cbv zeta. repeat split. Qed.

(** C8: for every panel title [p] and query [q], the row of
    [GetDefaultRow p q] has exactly one panel, that panel has exactly one
    target, and the target has reference identifier ["A"] and query [q]. *)
Theorem GetDefaultRow_single_panel (p q : string) :
  let row := GetDefaultRow p q in
  length (Panels row) = 1%nat
  /\ exists panel target,
       Panels row = [panel]
       /\ Targets panel = [target]
       /\ RefID target = "A"
       /\ Query target = q.
Proof.
  cbv zeta. split; [reflexivity|].
  exists (GetDefaultPanel p q).
  eexists. repeat split.
Qed.

(** C9: the version numbers are set at creation and kept.  A dashboard
    from [GetDefaultDashBoard] or [CreateDashboard] has SchemaVersion 14
    and Version 1, and [AddRowPanel] and [AddTemplating] return a dashboard
    with the SchemaVersion and the Version of the one they are given, so
    the predicate has the same value before and after. *)
Theorem versions_set_once :
  (forall t, SchemaVersion (GetDefaultDashBoard t) = 14
             /\ Version (GetDefaultDashBoard t) = 1
             /\ created_versions (GetDefaultDashBoard t) = true)
  /\ (forall t, SchemaVersion (CreateDashboard s t) = 14
                /\ Version (CreateDashboard s t) = 1
                /\ created_versions (CreateDashboard s t) = true)
  /\ (forall d p q,
        SchemaVersion (AddRowPanel s d p q) = SchemaVersion d
        /\ Version (AddRowPanel s d p q) = Version d
        /\ created_versions (AddRowPanel s d p q) = created_versions d)
  /\ (forall d tags m ds,
        SchemaVersion (AddTemplating s d tags m ds) = SchemaVersion d
        /\ Version (AddTemplating s d tags m ds) = Version d
        /\ created_versions (AddTemplating s d tags m ds)
           = created_versions d).
Proof. repeat split. Qed.

End DocumentModel.

(** C1, as the specification words it, fails: for the tag [host] of the
    measurement [cpu.load] the generated query is not the text with a single
    space between [WITH] and [KEY]. *)
Lemma GetDefaultTemplate_query_not_spec :
  TplQuery (GetDefaultTemplate "host" "cpu.load" "Test")
  <> spec_template_query "cpu.load" "host".
Proof. vm_compute. discriminate. Qed.

(** * Properties of the session and its transport *)

Section Transport.

Context `{Platform}.

Variable s : Session.

(** [httpRequest] panics exactly when the request cannot be built. *)
Lemma httpRequest_panics (method url : string) (body : option string)
  (w : World) :
  request_ok method url = false ->
  httpRequest s method url body w = Panicked w.
Proof.
  intros Hok. unfold httpRequest, http_NewRequest. now rewrite Hok.
Qed.

(** With a request that can be built, [httpRequest] is one exchange
    followed by the classification of what came back. *)
Lemma httpRequest_exchange (method url : string) (body : option string)
  (w : World) :
  request_ok method url = true ->
  httpRequest s method url body w
  = match client_Do (client s) w (json_request method url body) with
    | (DoError _, jar') =>
        Returned (None, Some transport_error)
          (after w (json_request method url body) jar')
    | (DoResponse response, jar') =>
        if StatusCode response =? 200
        then Returned (Some (ResponseBody response), None)
               (after w (json_request method url body) jar')
        else Returned
               (None,
                Some (GrafanaErr
                        {| Code := StatusCode response;
                           Description :=
                             Message
                               (fst (Decode_GrafanaMessage
                                       (ResponseBody response)
                                       zero_GrafanaMessage)) |}))
               (after w (json_request method url body) jar')
    end.
Proof.
  intros Hok. unfold httpRequest, http_NewRequest. rewrite Hok.
  unfold bind, Do, Header_Set. simpl.
  change (mkRequest method url [("Content-Type", "application/json")] body)
    with (json_request method url body).
  destruct (client_Do (client s) w (json_request method url body))
    as [[msg | response] jar'].
  - reflexivity.
  - destruct (StatusCode response =? 200); simpl; [reflexivity|].
    destruct (Decode_GrafanaMessage (ResponseBody response)
                zero_GrafanaMessage) as [gMess derr].
    reflexivity.
Qed.

(** Whenever [httpRequest] returns, it has dispatched exactly one request:
    the one for its method, URL and body. *)
Lemma httpRequest_dispatches (method url : string) (body : option string)
  (w w' : World) (r : option string * option error) :
  httpRequest s method url body w = Returned r w' ->
  dispatched w' = (dispatched w ++ [json_request method url body])%list.
Proof.
  destruct (request_ok method url) eqn:Hok.
  - rewrite (httpRequest_exchange _ _ _ _ Hok).
    destruct (client_Do (client s) w (json_request method url body))
      as [[msg | response] jar'].
    + intros E; inversion E; reflexivity.
    + destruct (StatusCode response =? 200);
        intros E; inversion E; reflexivity.
  - rewrite (httpRequest_panics _ _ _ _ Hok). discriminate.
Qed.

Lemma count_method_app (method : string) (l1 l2 : list Request) :
  count_method method (l1 ++ l2)
  = (count_method method l1 + count_method method l2)%nat.
Proof. unfold count_method. now rewrite filter_app, length_app. Qed.

(** C3, as the code has it: a response whose status is not 200 becomes an
    error.  Its Code is the status and its Description is the Message field
    that decoding the body left in a fresh [GrafanaMessage]; the error of
    the decoding step is dropped.  So when decoding fails, the Description
    is the message the decoder had stored by then: the empty string when it
    had stored none, and the stored message otherwise. *)
Theorem httpRequest_non200 (method url : string) (body : option string)
  (w : World) (response : Response) (jar' : list string) :
  request_ok method url = true ->
  client_Do (client s) w (json_request method url body)
  = (DoResponse response, jar') ->
  StatusCode response <> 200 ->
  let decoded :=
    Decode_GrafanaMessage (ResponseBody response) zero_GrafanaMessage in
  httpRequest s method url body w
  = Returned
      (None,
       Some (GrafanaErr {| Code := StatusCode response;
                           Description := Message (fst decoded) |}))
      (after w (json_request method url body) jar')
  /\ (forall gMess msg,
        decoded = (gMess, Some msg) ->
        httpRequest s method url body w
        = Returned
            (None,
             Some (GrafanaErr {| Code := StatusCode response;
                                 Description := Message gMess |}))
            (after w (json_request method url body) jar')).
Proof.
  intros Hok Hdo Hstatus decoded.
  assert (Hrun :
    httpRequest s method url body w
    = Returned
        (None,
         Some (GrafanaErr {| Code := StatusCode response;
                             Description := Message (fst decoded) |}))
        (after w (json_request method url body) jar')).
  { rewrite (httpRequest_exchange _ _ _ _ Hok), Hdo.
    apply Z.eqb_neq in Hstatus. now rewrite Hstatus. }
  split; [exact Hrun|].
  intros gMess msg Hfail. rewrite Hrun, Hfail. reflexivity.
Qed.

(** C4: when the client call itself fails, [httpRequest] returns the error
    with Code 0 and the fixed description, whatever the client reported.
    Conversely every error [httpRequest] returns is a [GrafanaError], and
    one with a nonzero Code was built from a response that was received,
    whose status is that Code and is not 200. *)
Theorem httpRequest_dispatch_failure (method url : string)
  (body : option string) (w : World) :
  request_ok method url = true ->
  (forall msg jar',
      client_Do (client s) w (json_request method url body)
      = (DoError msg, jar') ->
      httpRequest s method url body w
      = Returned
          (None,
           Some (GrafanaErr
                   {| Code := 0;
                      Description := "Unable to perform the http request" |}))
          (after w (json_request method url body) jar'))
  /\ (forall result e w',
        httpRequest s method url body w = Returned (result, Some e) w' ->
        exists ge,
          e = GrafanaErr ge
          /\ (Code ge <> 0 ->
              exists response jar',
                client_Do (client s) w (json_request method url body)
                = (DoResponse response, jar')
                /\ StatusCode response <> 200
                /\ Code ge = StatusCode response)).
Proof.
  intros Hok. split.
  - intros msg jar' Hdo.
    rewrite (httpRequest_exchange _ _ _ _ Hok), Hdo. reflexivity.
  - intros result e w'.
    rewrite (httpRequest_exchange _ _ _ _ Hok).
    destruct (client_Do (client s) w (json_request method url body))
      as [[msg | response] jar'].
    + intros E; inversion E; subst.
      eexists; split; [reflexivity|]. simpl. intros Hne. now elim Hne.
    + destruct (StatusCode response =? 200) eqn:Hst.
      * discriminate.
      * intros E; inversion E; subst.
        eexists; split; [reflexivity|]. simpl. intros _.
        exists response, jar'. repeat split.
        now apply Z.eqb_neq.
Qed.

(** [GetDashboard] dispatches exactly one request whenever it returns,
    and that request is a GET. *)
Lemma GetDashboard_dispatches (name : string) (w w' : World)
  (r : DashboardResult * option error) :
  GetDashboard s name w = Returned r w' ->
  dispatched w'
  = (dispatched w
     ++ [json_request "GET" (url s ++ "/api/dashboards/db/" ++ name)
           None])%list.
Proof.
  unfold GetDashboard, bind.
  destruct (httpRequest s "GET" (url s ++ "/api/dashboards/db/" ++ name)
              None w) as [[body err] w1 | w1] eqn:Hreq; [|discriminate].
  apply httpRequest_dispatches in Hreq.
  destruct err as [e|].
  - intros E; inversion E; subst. exact Hreq.
  - destruct body as [b|]; [|discriminate].
    destruct (Decode_DashboardResult b zero_DashboardResult) as [d derr].
    intros E; inversion E; subst. exact Hreq.
Qed.

(** C2: when the lookup inside [DeleteDashBoard] returns an error,
    [DeleteDashBoard] returns that same error value and stops in the world
    the lookup left: the only request dispatched is the lookup's GET, and
    the number of DELETE requests dispatched has not changed. *)
Theorem DeleteDashBoard_lookup_error (x : string) (w w' : World)
  (dashRes : DashboardResult) (e : error) :
  GetDashboard s x w = Returned (dashRes, Some e) w' ->
  DeleteDashBoard s x w = Returned (Some e) w'
  /\ dispatched w'
     = (dispatched w
        ++ [json_request "GET" (url s ++ "/api/dashboards/db/" ++ x)
              None])%list
  /\ count_method "DELETE" (dispatched w')
     = count_method "DELETE" (dispatched w).
Proof.
  intros Hget.
  pose proof (GetDashboard_dispatches _ _ _ _ Hget) as Hlog.
  repeat split.
  - unfold DeleteDashBoard, bind. rewrite Hget. reflexivity.
  - exact Hlog.
  - rewrite Hlog, count_method_app. unfold count_method at 2. simpl. lia.
Qed.

(** C10: the body [Login] posts.  Whenever the login request can be built,
    [Login] returns after dispatching one POST to [<url>/login] whose body
    is the JSON object with the session's user under [user], the
    session's password under [password] and, under [email], the encoding
    of the empty string, whatever the session holds. *)
Theorem Login_body (w : World) :
  request_ok "POST" (url s ++ "/login") = true ->
  let loginInfo :=
    {| User := SessionUser s; Email := EmptyString;
       Password := SessionPassword s |} in
  let jsonStr :=
    "{" ++ dquote ++ "user" ++ dquote ++ ":" ++ json_string (SessionUser s)
    ++ "," ++ dquote ++ "email" ++ dquote ++ ":" ++ json_string EmptyString
    ++ "," ++ dquote ++ "password" ++ dquote ++ ":"
    ++ json_string (SessionPassword s) ++ "}" in
  Marshal_UserInfo loginInfo = jsonStr
  /\ exists err w',
       Login s w = Returned err w'
       /\ dispatched w'
          = (dispatched w
             ++ [json_request "POST" (url s ++ "/login") (Some jsonStr)])%list.
Proof.
  intros Hok loginInfo jsonStr. split; [reflexivity|].
  unfold Login, bind.
  change (Marshal_UserInfo _) with jsonStr.
  destruct (httpRequest s "POST" (url s ++ "/login") (Some jsonStr) w)
    as [[result err] w1 | w1] eqn:Hreq.
  - exists err, w1. split; [reflexivity|].
    now apply httpRequest_dispatches in Hreq.
  - rewrite (httpRequest_exchange _ _ _ _ Hok) in Hreq.
    destruct (client_Do (client s) w _) as [[msg | response] jar'];
      [discriminate|].
    destruct (StatusCode response =? 200); discriminate.
Qed.

End Transport.

(** * The theorems at work on the demo service *)

(** Deleting a dashboard the service does not know: the lookup's 404 comes
    back as it is and only the GET has gone out. *)
Lemma DeleteDashBoard_lookup_error_witness :
  @GetDashboard demo_platform demo_session "missing" initial_world
  = Returned
      (zero_DashboardResult,
       Some (GrafanaErr {| Code := 404;
                           Description := "Dashboard not found" |}))
      (after initial_world
         (json_request "GET" "http://grafana:3000/api/dashboards/db/missing"
            None) [])
  /\ @DeleteDashBoard demo_platform demo_session "missing" initial_world
     = Returned
         (Some (GrafanaErr {| Code := 404;
                              Description := "Dashboard not found" |}))
         (after initial_world
            (json_request "GET"
               "http://grafana:3000/api/dashboards/db/missing" None) []).
Proof.
  assert (Hget :
    @GetDashboard demo_platform demo_session "missing" initial_world
    = Returned
        (zero_DashboardResult,
         Some (GrafanaErr {| Code := 404;
                             Description := "Dashboard not found" |}))
        (after initial_world
           (json_request "GET"
              "http://grafana:3000/api/dashboards/db/missing" None) []))
    by reflexivity.
  split; [exact Hget|].
  exact (proj1 (@DeleteDashBoard_lookup_error demo_platform demo_session
                  "missing" initial_world _ _ _ Hget)).
Defined.

(** A lookup that succeeds is followed by the DELETE for the slug. *)
Lemma DeleteDashBoard_demo_deletes :
  dispatched
    (world_of (@DeleteDashBoard demo_platform demo_session "demo"
                 initial_world))
  = [json_request "GET" "http://grafana:3000/api/dashboards/db/demo" None;
     json_request "DELETE" "http://grafana:3000/api/dashboards/db/demo-1"
       None].
Proof. reflexivity. Qed.

(** A 404 with a message envelope, a 502 whose body is not JSON, and a 409
    whose body stops decoding after a message was stored. *)
Lemma httpRequest_non200_witness :
  @httpRequest demo_platform demo_session "GET"
    "http://grafana:3000/api/dashboards/db/missing" None initial_world
  = Returned
      (None,
       Some (GrafanaErr {| Code := 404;
                           Description := "Dashboard not found" |}))
      (after initial_world
         (json_request "GET" "http://grafana:3000/api/dashboards/db/missing"
            None) [])
  /\ @httpRequest demo_platform demo_session "GET"
       "http://grafana:3000/api/dashboards/db/gateway" None initial_world
     = Returned
         (None,
          Some (GrafanaErr {| Code := 502; Description := EmptyString |}))
         (after initial_world
            (json_request "GET"
               "http://grafana:3000/api/dashboards/db/gateway" None) [])
  /\ @httpRequest conflict_platform demo_session "POST"
       "http://grafana:3000/api/dashboards/db" None initial_world
     = Returned
         (None,
          Some (GrafanaErr {| Code := 409; Description := "a" |}))
         (after initial_world
            (json_request "POST" "http://grafana:3000/api/dashboards/db"
               None) []).
Proof.
  split; [|split].
  - refine (proj1 (@httpRequest_non200 demo_platform demo_session "GET"
                     "http://grafana:3000/api/dashboards/db/missing" None
                     initial_world
                     {| StatusCode := 404;
                        ResponseBody :=
                          message_envelope "Dashboard not found" |}
                     [] eq_refl eq_refl _)).
    simpl. lia.
  - refine (proj2 (@httpRequest_non200 demo_platform demo_session "GET"
                     "http://grafana:3000/api/dashboards/db/gateway" None
                     initial_world
                     {| StatusCode := 502;
                        ResponseBody := "<html>Bad Gateway</html>" |}
                     [] eq_refl eq_refl _)
                  zero_GrafanaMessage
                  "invalid character looking for beginning of value"
                  eq_refl).
    simpl. lia.
  - refine (proj2 (@httpRequest_non200 conflict_platform demo_session "POST"
                     "http://grafana:3000/api/dashboards/db" None
                     initial_world
                     {| StatusCode := 409; ResponseBody := conflict_body |}
                     [] eq_refl eq_refl _)
                  {| Message := "a" |} unmarshal_type_error eq_refl).
    simpl. lia.
Defined.

(** C3, as the specification words it, fails: the service answers 409 with
    a body on which decoding reports an error, and the Description of the
    error [httpRequest] returns is the message stored before the error, not
    the empty string. *)
Lemma httpRequest_decode_failure_keeps_message :
  StatusCode {| StatusCode := 409; ResponseBody := conflict_body |} <> 200
  /\ snd (flat_Decode_GrafanaMessage conflict_body zero_GrafanaMessage)
     = Some unmarshal_type_error
  /\ @httpRequest conflict_platform demo_session "POST"
       "http://grafana:3000/api/dashboards/db" None initial_world
     = Returned
         (None,
          Some (GrafanaErr {| Code := 409; Description := "a" |}))
         (after initial_world
            (json_request "POST" "http://grafana:3000/api/dashboards/db"
               None) [])
  /\ Description {| Code := 409; Description := "a" |} <> EmptyString.
Proof.
  repeat split; try reflexivity; simpl; discriminate.
Qed.

(** The flat decoder on the bodies of the demo service: an envelope gives
    its message, and a page that is not JSON gives an error and no
    message. *)
Lemma flat_Decode_GrafanaMessage_samples :
  flat_Decode_GrafanaMessage (message_envelope "conflict")
    zero_GrafanaMessage
  = ({| Message := "conflict" |}, None)
  /\ flat_Decode_GrafanaMessage "<html>Bad Gateway</html>"
       zero_GrafanaMessage
     = (zero_GrafanaMessage, Some "json: syntax error").
Proof. split; reflexivity. Qed.

(** A host that cannot be reached gives Code 0 and the fixed description;
    the 404 of the demo service is traced back to the response received. *)
Lemma httpRequest_dispatch_failure_witness :
  @httpRequest demo_platform (NewSession "admin" "admin" "http://nowhere")
    "GET" "http://nowhere/api/dashboards/db/demo" None initial_world
  = Returned
      (None,
       Some (GrafanaErr
               {| Code := 0;
                  Description := "Unable to perform the http request" |}))
      (after initial_world
         (json_request "GET" "http://nowhere/api/dashboards/db/demo" None)
         [])
  /\ exists ge,
       GrafanaErr {| Code := 404; Description := "Dashboard not found" |}
       = GrafanaErr ge
       /\ (Code ge <> 0 ->
           exists response jar',
             demo_Do (client demo_session) initial_world
               (json_request "GET"
                  "http://grafana:3000/api/dashboards/db/missing" None)
             = (DoResponse response, jar')
             /\ StatusCode response <> 200
             /\ Code ge = StatusCode response).
Proof.
  split.
  - exact (proj1 (@httpRequest_dispatch_failure demo_platform
                    (NewSession "admin" "admin" "http://nowhere")
                    "GET" "http://nowhere/api/dashboards/db/demo" None
                    initial_world eq_refl)
             "dial tcp: no such host" [] eq_refl).
  - exact (proj2 (@httpRequest_dispatch_failure demo_platform demo_session
                    "GET" "http://grafana:3000/api/dashboards/db/missing"
                    None initial_world eq_refl)
             None
             (GrafanaErr {| Code := 404;
                            Description := "Dashboard not found" |})
             (after initial_world
                (json_request "GET"
                   "http://grafana:3000/api/dashboards/db/missing" None) [])
             eq_refl).
Defined.

(** The login of [admin]: the email field is there and empty. *)
Lemma Login_body_witness :
  exists err w',
    @Login demo_platform demo_session initial_world = Returned err w'
    /\ dispatched w'
       = [json_request "POST" "http://grafana:3000/login"
            (Some ("{" ++ dquote ++ "user" ++ dquote ++ ":"
                   ++ dquote ++ "admin" ++ dquote
                   ++ "," ++ dquote ++ "email" ++ dquote ++ ":"
                   ++ dquote ++ dquote
                   ++ "," ++ dquote ++ "password" ++ dquote ++ ":"
                   ++ dquote ++ "admin" ++ dquote ++ "}"))].
Proof.
  exact (proj2 (@Login_body demo_platform demo_session initial_world
                  eq_refl)).
Defined.

(** * Further properties of the document model *)

Section Strings.

Lemma list_ascii_of_string_app (a b : string) :
  list_ascii_of_string (a ++ b)
  = (list_ascii_of_string a ++ list_ascii_of_string b)%list.
Proof. induction a as [|c a IH]; simpl; [reflexivity | now rewrite IH]. Qed.

Lemma list_ascii_of_string_inj (a b : string) :
  list_ascii_of_string a = list_ascii_of_string b -> a = b.
Proof.
  intros E.
  rewrite <- (string_of_list_ascii_of_string a),
          <- (string_of_list_ascii_of_string b).
  now rewrite E.
Qed.

Lemma append_cancel_l (p a b : string) : p ++ a = p ++ b -> a = b.
Proof.
  induction p as [|c p IH]; simpl; intros E; [exact E|].
  inversion E. now apply IH.
Qed.

Lemma append_cancel_r (q a b : string) : a ++ q = b ++ q -> a = b.
Proof.
  intros E. apply list_ascii_of_string_inj.
  apply (f_equal list_ascii_of_string) in E.
  rewrite !list_ascii_of_string_app in E.
  now apply app_inv_tail in E.
Qed.

Lemma length_append (a b : string) :
  String.length (a ++ b) = (String.length a + String.length b)%nat.
Proof. induction a as [|c a IH]; simpl; [reflexivity | now rewrite IH]. Qed.

(** Two texts that agree, each a part without the character [c] followed by
    [c] and a rest, agree part by part. *)
Lemma split_at_first (c : ascii) (a1 a2 r1 r2 : string) :
  lacks c a1 -> lacks c a2 ->
  a1 ++ String c r1 = a2 ++ String c r2 ->
  a1 = a2 /\ r1 = r2.
Proof.
  revert a2. induction a1 as [|x a1 IH]; intros [|y a2]; simpl.
  - intros _ _ E. inversion E. now split.
  - intros _ [Hy _] E. inversion E. congruence.
  - intros [Hx _] _ E. inversion E. congruence.
  - intros [_ H1] [_ H2] E. inversion E; subst.
    destruct (IH a2 H1 H2 H3) as [-> ->]. now split.
Qed.

End Strings.

Section Edits.

Variable s : Session.

Lemma set_fields_eta (d : Dashboard) :
  set_Templating (set_Rows d (Rows d)) (DashTemplating d) = d.
Proof. now destruct d. Qed.

(** The effect of a sequence of edits, field by field. *)
Lemma apply_edits_eq (es : list edit) :
  forall d : Dashboard,
    apply_edits s d es
    = set_Templating
        (set_Rows d (Rows d ++ rows_of_edits es)%list)
        (templating_of_edits (DashTemplating d) es).
Proof.
  unfold apply_edits.
  induction es as [|e es IH]; intros d.
  - simpl. rewrite app_nil_r. symmetry. apply set_fields_eta.
  - simpl fold_left. rewrite IH. destruct e as [p q | tags m ds]; simpl.
    + now rewrite <- app_assoc.
    + reflexivity.
Qed.

(** X1: A sequence of mutator calls has a normal form: the dashboard it returns
    is the one given, with the rows the row edits ask for appended in their
    order and with the templating block of the last templating edit.  No
    other field changes, and nothing of an earlier templating edit stays. *)
Theorem apply_edits_normal_form (es : list edit) :
  forall d : Dashboard,
    apply_edits s d es
    = set_Templating
        (set_Rows d (Rows d ++ rows_of_edits es)%list)
        (templating_of_edits (DashTemplating d) es).
Proof. exact (apply_edits_eq es). Qed.

(** X2: The two mutators commute: a row and a templating block can be added in
    either order. *)
Theorem AddRowPanel_AddTemplating_commute (d : Dashboard) (p q : string)
  (tags : list string) (m ds : string) :
  AddTemplating s (AddRowPanel s d p q) tags m ds
  = AddRowPanel s (AddTemplating s d tags m ds) p q.
Proof. reflexivity. Qed.

Lemma GetDefaultRow_as_built (p q : string) : row_as_built (GetDefaultRow p q).
Proof.
  exists (GetDefaultPanel p q). do 2 eexists. repeat split.
Qed.

Lemma rows_of_edits_as_built (es : list edit) :
  Forall row_as_built (rows_of_edits es).
Proof.
  unfold rows_of_edits. induction es as [|[p q | tags m ds] es IH]; simpl.
  - constructor.
  - constructor; [apply GetDefaultRow_as_built | exact IH].
  - exact IH.
Qed.

(** X3: The shape of rows is an invariant of the mutators: when every row of a
    dashboard has one graph panel with one target [A] and two equal Y axes,
    so has every row after any sequence of mutator calls. *)
Theorem apply_edits_rows_as_built (d : Dashboard) (es : list edit) :
  Forall row_as_built (Rows d) ->
  Forall row_as_built (Rows (apply_edits s d es)).
Proof.
  intros Hd. rewrite apply_edits_eq. simpl.
  apply Forall_app. split; [exact Hd | apply rows_of_edits_as_built].
Qed.

(** X4: A dashboard made by [CreateDashboard] and then edited keeps its title
    and version numbers, has as many rows as there were row edits, and every
    row has the built shape. *)
Theorem created_then_edited (t : string) (es : list edit) :
  let d := apply_edits s (CreateDashboard s t) es in
  Title d = t
  /\ SchemaVersion d = 14
  /\ Version d = 1
  /\ Rows d = rows_of_edits es
  /\ length (Rows d)
     = length (filter (fun e => match e with
                                | EditRow _ _ => true
                                | EditTemplating _ _ _ => false
                                end) es)
  /\ Forall row_as_built (Rows d).
Proof.
  cbv zeta. rewrite apply_edits_eq. simpl.
  repeat split.
  - induction es as [|[p q | tags m ds] es IH]; simpl; congruence.
  - apply rows_of_edits_as_built.
Qed.

(** X5: [GetDefaultTemplates] works name by name: no template for no name, and
    the templates of two lists of names put end to end are the templates of
    the first followed by those of the second; in particular a name given
    twice gives two templates. *)
Theorem GetDefaultTemplates_app (a b : list string) (m ds : string) :
  GetDefaultTemplates [] m ds = []
  /\ GetDefaultTemplates (a ++ b) m ds
     = (GetDefaultTemplates a m ds ++ GetDefaultTemplates b m ds)%list
  /\ length (GetDefaultTemplates a m ds) = length a.
Proof.
  rewrite !GetDefaultTemplates_map. repeat split.
  - apply map_app.
  - apply length_map.
Qed.

(** X6: A template tells its arguments apart: two calls of [GetDefaultTemplate]
    give the same template only for the same tag name, measurement and
    datasource. *)
Theorem GetDefaultTemplate_inj (n m d n' m' d' : string) :
  GetDefaultTemplate n m d = GetDefaultTemplate n' m' d' ->
  n = n' /\ m = m' /\ d = d'.
Proof.
  intros E.
  assert (Hn : n = n') by exact (f_equal Name E).
  assert (Hd : d = d') by exact (f_equal Datasource E).
  assert (Hq := f_equal TplQuery E). subst n' d'. simpl in Hq.
  repeat split.
  inversion Hq as [Hq'].
  apply (append_cancel_r
           (dquote ++ " WITH  KEY = " ++ dquote ++ n ++ dquote)).
  exact Hq'.
Qed.

End Edits.

(** * The text of errors *)

Section ErrorText.

Lemma string_of_uint_lacks_colon (d : Decimal.uint) :
  lacks ":" (NilEmpty.string_of_uint d).
Proof. induction d; simpl; try exact I; (split; [discriminate | assumption]). Qed.

Lemma Sprintf_d_lacks_colon (n : Z) : lacks ":" (Sprintf_d n).
Proof.
  unfold Sprintf_d.
  assert (Hu : forall d, lacks ":" (NilZero.string_of_uint d)).
  { intros d. destruct d; try apply string_of_uint_lacks_colon.
    simpl. split; [discriminate | exact I]. }
  destruct (Z.to_int n) as [d | d]; simpl.
  - apply Hu.
  - split; [discriminate | apply Hu].
Qed.

Lemma Sprintf_d_inj (a b : Z) : Sprintf_d a = Sprintf_d b -> a = b.
Proof.
  unfold Sprintf_d. intros E.
  assert (Hnn : forall z, Z.to_int z <> Decimal.Pos Decimal.Nil
                          /\ Z.to_int z <> Decimal.Neg Decimal.Nil).
  { intros [|p|p]; simpl; split; try discriminate;
      intros [= Hp]; now apply (DecimalPos.Unsigned.to_uint_nonnil p). }
  apply DecimalZ.to_int_inj.
  assert (Ea := NilZero.isi (Z.to_int a) (proj1 (Hnn a)) (proj2 (Hnn a))).
  assert (Eb := NilZero.isi (Z.to_int b) (proj1 (Hnn b)) (proj2 (Hnn b))).
  rewrite E in Ea. congruence.
Qed.

(** X7: The text of an error tells the error: two [GrafanaError] values with
    the same [Error] text have the same Code and the same Description. *)
Theorem Error_inj (h1 h2 : GrafanaError) :
  Error h1 = Error h2 -> h1 = h2.
Proof.
  destruct h1 as [c1 d1], h2 as [c2 d2]. unfold Error. simpl.
  destruct (c1 =? 0) eqn:E1, (c2 =? 0) eqn:E2; simpl; intros E.
  - apply Z.eqb_eq in E1, E2. subst.
    f_equal. now apply (append_cancel_l "ERROR: ").
  - discriminate.
  - discriminate.
  - apply (append_cancel_l "HTTP ") in E.
    destruct (split_at_first ":" _ _ _ _
                (Sprintf_d_lacks_colon c1) (Sprintf_d_lacks_colon c2) E)
      as [Hc Hd].
    apply Sprintf_d_inj in Hc. inversion Hd. now subst.
Qed.

End ErrorText.

(** * Further properties of the session *)

Section Operations.

Context `{Platform} `{Encoder}.

Variable s : Session.

(** When [httpRequest] panics. *)
Lemma httpRequest_Panicked_iff (method url : string) (body : option string)
  (w w' : World) :
  httpRequest s method url body w = Panicked w'
  <-> request_ok method url = false /\ w' = w.
Proof.
  destruct (request_ok method url) eqn:Hok.
  - rewrite (httpRequest_exchange s _ _ _ _ Hok).
    split; [|intros [Hf _]; discriminate].
    destruct (client_Do (client s) w (json_request method url body))
      as [[msg | response] jar']; [discriminate|].
    destruct (StatusCode response =? 200); discriminate.
  - rewrite (httpRequest_panics s _ _ _ _ Hok).
    split; [intros E; inversion E; now split | intros [_ ->]; reflexivity].
Qed.

(** X8: [httpRequest] panics exactly when the request cannot be built, and then
    it has dispatched nothing and left the jar alone. *)
Theorem httpRequest_panics_iff (method url : string) (body : option string)
  (w w' : World) :
  httpRequest s method url body w = Panicked w'
  <-> request_ok method url = false /\ w' = w.
Proof. exact (httpRequest_Panicked_iff method url body w w'). Qed.

(** X9: [httpRequest] returns a body or an error, never both and never
    neither; it returns a body exactly for a response with status 200, and
    the body is the one of that response. *)
Theorem httpRequest_result_xor_error (method url : string)
  (body : option string) (w w' : World)
  (result : option string) (err : option error) :
  httpRequest s method url body w = Returned (result, err) w' ->
  (result = None /\ err <> None
   /\ forall response jar',
        client_Do (client s) w (json_request method url body)
        = (DoResponse response, jar') ->
        StatusCode response <> 200)
  \/ (err = None
      /\ exists response jar',
           client_Do (client s) w (json_request method url body)
           = (DoResponse response, jar')
           /\ StatusCode response = 200
           /\ result = Some (ResponseBody response)).
Proof.
  destruct (request_ok method url) eqn:Hok.
  - rewrite (httpRequest_exchange s _ _ _ _ Hok).
    destruct (client_Do (client s) w (json_request method url body))
      as [[msg | response] jar'].
    + intros E; inversion E; subst. left.
      repeat split; [discriminate | intros ? ? ?; discriminate].
    + destruct (StatusCode response =? 200) eqn:Hst;
        intros E; inversion E; subst.
      * right. split; [reflexivity|]. exists response, jar'.
        apply Z.eqb_eq in Hst. now repeat split.
      * left. repeat split; [discriminate|].
        intros r j [= <- _]. now apply Z.eqb_neq.
  - rewrite (httpRequest_panics s _ _ _ _ Hok). discriminate.
Qed.

(** X10: How the errors of [httpRequest] read.  A failed client call reads
    [ERROR: Unable to perform the http request]; a response with a status
    other than 200 reads [HTTP <status>: <message>], except that a status of
    zero reads [ERROR: <message>], as an error that is not an HTTP error. *)
Theorem httpRequest_error_text (method url : string) (body : option string)
  (w w' : World) (result : option string) (ge : GrafanaError) :
  httpRequest s method url body w
  = Returned (result, Some (GrafanaErr ge)) w' ->
  match fst (client_Do (client s) w (json_request method url body)) with
  | DoError _ => Error ge = "ERROR: Unable to perform the http request"
  | DoResponse response =>
      let message :=
        Message (fst (Decode_GrafanaMessage (ResponseBody response)
                        zero_GrafanaMessage)) in
      Error ge
      = if StatusCode response =? 0
        then "ERROR: " ++ message
        else "HTTP " ++ Sprintf_d (StatusCode response) ++ ": " ++ message
  end.
Proof.
  destruct (request_ok method url) eqn:Hok.
  - rewrite (httpRequest_exchange s _ _ _ _ Hok).
    destruct (client_Do (client s) w (json_request method url body))
      as [[msg | response] jar']; simpl.
    + intros E; inversion E; subst. reflexivity.
    + destruct (StatusCode response =? 200) eqn:Hst;
        intros E; inversion E; subst.
      unfold Error; simpl.
      destruct (StatusCode response =? 0); reflexivity.
  - rewrite (httpRequest_panics s _ _ _ _ Hok). discriminate.
Qed.

(** [GetDashboard] is one exchange and, on status 200, one decoding. *)
Lemma GetDashboard_exchange (name : string) (w : World) :
  request_ok "GET" (url s ++ "/api/dashboards/db/" ++ name) = true ->
  let request :=
    json_request "GET" (url s ++ "/api/dashboards/db/" ++ name) None in
  GetDashboard s name w
  = match client_Do (client s) w request with
    | (DoError _, jar') =>
        Returned (zero_DashboardResult, Some transport_error)
          (after w request jar')
    | (DoResponse response, jar') =>
        if StatusCode response =? 200
        then let decoded :=
               Decode_DashboardResult (ResponseBody response)
                 zero_DashboardResult in
             Returned (fst decoded, option_map JsonErr (snd decoded))
               (after w request jar')
        else Returned
               (zero_DashboardResult,
                Some (GrafanaErr
                        {| Code := StatusCode response;
                           Description :=
                             Message
                               (fst (Decode_GrafanaMessage
                                       (ResponseBody response)
                                       zero_GrafanaMessage)) |}))
               (after w request jar')
    end.
Proof.
  intros Hok request. unfold GetDashboard, bind.
  rewrite (httpRequest_exchange s _ _ _ _ Hok). fold request.
  destruct (client_Do (client s) w request) as [[msg | response] jar'].
  - reflexivity.
  - destruct (StatusCode response =? 200); [|reflexivity].
    destruct (Decode_DashboardResult (ResponseBody response)
                zero_DashboardResult) as [d derr].
    reflexivity.
Qed.

(** When [GetDashboard] panics. *)
Lemma GetDashboard_Panicked_iff (name : string) (w w' : World) :
  GetDashboard s name w = Panicked w'
  <-> request_ok "GET" (url s ++ "/api/dashboards/db/" ++ name) = false
      /\ w' = w.
Proof.
  destruct (request_ok "GET" (url s ++ "/api/dashboards/db/" ++ name))
    eqn:Hok.
  - rewrite (GetDashboard_exchange _ _ Hok). cbv zeta.
    split; [|intros [Hf _]; discriminate].
    destruct (client_Do (client s) w _) as [[msg | response] jar'];
      [discriminate|].
    destruct (StatusCode response =? 200); discriminate.
  - unfold GetDashboard, bind.
    rewrite (httpRequest_panics s _ _ _ _ Hok).
    split; [intros E; inversion E; now split | intros [_ ->]; reflexivity].
Qed.

(** X11: [GetDashboard] panics exactly when its request cannot be built: the
    branch that would decode from a nil body is never taken. *)
Theorem GetDashboard_panics_iff (name : string) (w w' : World) :
  GetDashboard s name w = Panicked w'
  <-> request_ok "GET" (url s ++ "/api/dashboards/db/" ++ name) = false
      /\ w' = w.
Proof. exact (GetDashboard_Panicked_iff name w w'). Qed.

(** X12: When [GetDashboard] returns a [GrafanaError], the dashboard result it
    returns beside it is the zero value: nothing of the response is in it. *)
Theorem GetDashboard_GrafanaError_zero (name : string) (w w' : World)
  (dashboard : DashboardResult) (ge : GrafanaError) :
  GetDashboard s name w = Returned (dashboard, Some (GrafanaErr ge)) w' ->
  dashboard = zero_DashboardResult.
Proof.
  destruct (request_ok "GET" (url s ++ "/api/dashboards/db/" ++ name))
    eqn:Hok.
  - rewrite (GetDashboard_exchange _ _ Hok). cbv zeta.
    destruct (client_Do (client s) w _) as [[msg | response] jar'].
    + intros E; now inversion E.
    + destruct (StatusCode response =? 200).
      * destruct (Decode_DashboardResult (ResponseBody response)
                    zero_DashboardResult) as [d [msg|]]; simpl;
          intros E; inversion E.
      * intros E; now inversion E.
  - intros E. unfold GetDashboard, bind in E.
    rewrite (httpRequest_panics s _ _ _ _ Hok) in E. discriminate.
Qed.

(** X13: On a response with status 200 [GetDashboard] returns what the decoder
    gives, both parts of it: the dashboard result as the decoder left it and
    the decoder's own error, if any, which is not made a [GrafanaError]. *)
Theorem GetDashboard_200 (name : string) (w : World) (response : Response)
  (jar' : list string) (decoded : DashboardResult) (derr : option string) :
  let request :=
    json_request "GET" (url s ++ "/api/dashboards/db/" ++ name) None in
  request_ok "GET" (url s ++ "/api/dashboards/db/" ++ name) = true ->
  client_Do (client s) w request = (DoResponse response, jar') ->
  StatusCode response = 200 ->
  Decode_DashboardResult (ResponseBody response) zero_DashboardResult
  = (decoded, derr) ->
  GetDashboard s name w
  = Returned (decoded, option_map JsonErr derr) (after w request jar').
Proof.
  intros request Hok Hdo Hst Hdec.
  rewrite (GetDashboard_exchange _ _ Hok). cbv zeta. fold request.
  rewrite Hdo, Hst, Hdec. reflexivity.
Qed.

(** X14: When the lookup succeeds, [DeleteDashBoard] sends the DELETE to the
    slug the lookup found, not to the name it was given, and returns what
    that exchange returns.  The log gains the GET and then the DELETE. *)
Theorem DeleteDashBoard_uses_slug (x : string) (w w1 : World)
  (dashRes : DashboardResult) :
  let reqURL :=
    url s ++ "/api/dashboards/db/" ++ Slug (ResultMeta dashRes) in
  GetDashboard s x w = Returned (dashRes, None) w1 ->
  request_ok "DELETE" reqURL = true ->
  exists result err w2,
    httpRequest s "DELETE" reqURL None w1 = Returned (result, err) w2
    /\ DeleteDashBoard s x w = Returned err w2
    /\ dispatched w2
       = (dispatched w
          ++ [json_request "GET" (url s ++ "/api/dashboards/db/" ++ x) None;
              json_request "DELETE" reqURL None])%list.
Proof.
  intros reqURL Hget Hok.
  unfold DeleteDashBoard, bind. rewrite Hget. fold reqURL.
  destruct (httpRequest s "DELETE" reqURL None w1)
    as [[result err] w2 | w2] eqn:Hdel.
  - exists result, err, w2. repeat split.
    apply httpRequest_dispatches in Hdel.
    apply GetDashboard_dispatches in Hget.
    rewrite Hdel, Hget, <- app_assoc. reflexivity.
  - apply httpRequest_Panicked_iff in Hdel. destruct Hdel; congruence.
Qed.

(** X15: What [DeleteDashBoard] can dispatch, however it ends: nothing, or the
    GET for the name, or that GET followed by one DELETE.  It never sends a
    DELETE that no GET for the name precedes, and never more than one. *)
Theorem DeleteDashBoard_log_shape (x : string) (w : World) :
  let get :=
    json_request "GET" (url s ++ "/api/dashboards/db/" ++ x) None in
  exists l,
    dispatched (world_of (DeleteDashBoard s x w)) = (dispatched w ++ l)%list
    /\ (l = [] \/ l = [get]
        \/ exists slug,
             l = [get;
                  json_request "DELETE"
                    (url s ++ "/api/dashboards/db/" ++ slug) None]).
Proof.
  intros get. unfold DeleteDashBoard, bind.
  destruct (GetDashboard s x w) as [[dashRes err] w1 | w1] eqn:Hget.
  - pose proof (GetDashboard_dispatches s _ _ _ _ Hget) as Hlog.
    fold get in Hlog.
    destruct err as [e|].
    + exists [get]. simpl. auto.
    + destruct (httpRequest s "DELETE"
                  (url s ++ "/api/dashboards/db/" ++ Slug (ResultMeta dashRes))
                  None w1) as [[result err] w2 | w2] eqn:Hdel.
      * apply httpRequest_dispatches in Hdel. simpl.
        eexists. split.
        -- rewrite Hdel, Hlog, <- app_assoc. reflexivity.
        -- right; right. eexists. reflexivity.
      * apply httpRequest_Panicked_iff in Hdel. destruct Hdel as [_ ->].
        exists [get]. simpl. auto.
  - apply GetDashboard_Panicked_iff in Hget. destruct Hget as [_ ->].
    exists []. simpl. rewrite app_nil_r. auto.
Qed.

(** A POST whose result is dropped and whose error is returned, the common
    body of [Login] and [UpdateDashboard]. *)
Lemma post_exchange (reqURL jsonStr : string) (w : World) :
  request_ok "POST" reqURL = true ->
  let request := json_request "POST" reqURL (Some jsonStr) in
  exists err,
    bind (httpRequest s "POST" reqURL (Some jsonStr))
      (fun x => match x with (_, err) => ret err end) w
    = Returned err (after w request (snd (client_Do (client s) w request)))
    /\ (err = None
        <-> exists response,
              fst (client_Do (client s) w request) = DoResponse response
              /\ StatusCode response = 200).
Proof.
  intros Hok request. unfold bind.
  rewrite (httpRequest_exchange s _ _ _ _ Hok). fold request.
  destruct (client_Do (client s) w request) as [[msg | response] jar'];
    simpl.
  - eexists. split; [reflexivity|].
    split; [discriminate | intros [r [E _]]; discriminate].
  - destruct (StatusCode response =? 200) eqn:Hst.
    + eexists. split; [reflexivity|].
      split; [|reflexivity]. intros _. exists response.
      apply Z.eqb_eq in Hst. now split.
    + eexists. split; [reflexivity|].
      split; [discriminate|].
      intros [r [[= <-] Hr]]. apply Z.eqb_neq in Hst. contradiction.
Qed.

(** X16: [Login] whenever the request can be built: it returns, the jar is the
    one the client left after the exchange, and there is no error exactly
    when the service answered 200, whatever the body of the answer. *)
Theorem Login_nil_iff_200 (w : World) :
  request_ok "POST" (url s ++ "/login") = true ->
  let request :=
    json_request "POST" (url s ++ "/login")
      (Some (Marshal_UserInfo
               {| User := SessionUser s; Email := EmptyString;
                  Password := SessionPassword s |})) in
  exists err,
    Login s w
    = Returned err (after w request (snd (client_Do (client s) w request)))
    /\ (err = None
        <-> exists response,
              fst (client_Do (client s) w request) = DoResponse response
              /\ StatusCode response = 200).
Proof. intros Hok. exact (post_exchange _ _ w Hok). Qed.

(** X17: [UpdateDashboard] whenever the request can be built: it dispatches one
    POST to [<url>/api/dashboards/db] whose body is the encoding of the
    dashboard and the overwrite flag as given, and returns no error exactly
    when the service answered 200. *)
Theorem UpdateDashboard_exchange (db : Dashboard) (overwrite : bool)
  (w : World) :
  request_ok "POST" (url s ++ "/api/dashboards/db") = true ->
  let request :=
    json_request "POST" (url s ++ "/api/dashboards/db")
      (Some (Marshal_DashboardUploader
               {| UploadDashboard := db; Overwrite := overwrite |})) in
  exists err,
    UpdateDashboard s db overwrite w
    = Returned err (after w request (snd (client_Do (client s) w request)))
    /\ (err = None
        <-> exists response,
              fst (client_Do (client s) w request) = DoResponse response
              /\ StatusCode response = 200).
Proof. intros Hok. exact (post_exchange _ _ w Hok). Qed.

Lemma emits_only_ret {A : Type} (good : Request -> bool) (a : A) :
  emits_only good (ret a).
Proof. intros w. exists []. simpl. now rewrite app_nil_r. Qed.

Lemma emits_only_bind {A B : Type} (good : Request -> bool)
  (c : M A) (k : A -> M B) :
  emits_only good c ->
  (forall a, emits_only good (k a)) ->
  emits_only good (bind c k).
Proof.
  intros Hc Hk w. destruct (Hc w) as [l1 [E1 F1]]. unfold bind.
  destruct (c w) as [a w1 | w1]; simpl in E1.
  - destruct (Hk a w1) as [l2 [E2 F2]].
    exists (l1 ++ l2)%list. split.
    + now rewrite E2, E1, app_assoc.
    + rewrite forallb_app, F1, F2. reflexivity.
  - exists l1. now split.
Qed.

Lemma emits_only_httpRequest (good : Request -> bool)
  (method url : string) (body : option string) :
  good (json_request method url body) = true ->
  emits_only good (httpRequest s method url body).
Proof.
  intros Hgood w.
  destruct (httpRequest s method url body w) as [r w1 | w1] eqn:E.
  - apply httpRequest_dispatches in E.
    exists [json_request method url body]. simpl. now rewrite Hgood.
  - apply httpRequest_Panicked_iff in E. destruct E as [_ ->].
    exists []. simpl. now rewrite app_nil_r.
Qed.

Lemma prefix_slash (p rest : string) :
  String.prefix (p ++ "/") (p ++ String "/" rest) = true.
Proof.
  induction p as [|c p IH]; simpl.
  - destruct (ascii_dec "/" "/"); [now destruct rest | congruence].
  - destruct (ascii_dec c c); [exact IH | congruence].
Qed.

Lemma session_request_GET (rest : string) (body : option string) :
  session_request s (json_request "GET" (url s ++ String "/" rest) body)
  = true.
Proof. unfold session_request. simpl. apply prefix_slash. Qed.

Lemma session_request_POST (rest : string) (body : option string) :
  session_request s (json_request "POST" (url s ++ String "/" rest) body)
  = true.
Proof. unfold session_request. simpl. apply prefix_slash. Qed.

Lemma session_request_DELETE (rest : string) (body : option string) :
  session_request s (json_request "DELETE" (url s ++ String "/" rest) body)
  = true.
Proof. unfold session_request. simpl. apply prefix_slash. Qed.

Lemma emits_only_GetDashboard (name : string) :
  emits_only (session_request s) (GetDashboard s name).
Proof.
  unfold GetDashboard. apply emits_only_bind.
  - apply emits_only_httpRequest. apply session_request_GET.
  - intros [body [e|]]; [apply emits_only_ret|].
    destruct body as [b|].
    + destruct (Decode_DashboardResult b zero_DashboardResult).
      apply emits_only_ret.
    + intros w. exists []. simpl. now rewrite app_nil_r.
Qed.

Lemma emits_only_run_call (c : call) :
  emits_only (session_request s) (run_call s c).
Proof.
  destruct c as [| db overwrite | name | name]; simpl;
    (apply emits_only_bind; [|intros; apply emits_only_ret]).
  - unfold Login. apply emits_only_bind.
    + apply emits_only_httpRequest. apply session_request_POST.
    + intros [? ?]. apply emits_only_ret.
  - unfold UpdateDashboard. apply emits_only_bind.
    + apply emits_only_httpRequest. apply session_request_POST.
    + intros [? ?]. apply emits_only_ret.
  - apply emits_only_GetDashboard.
  - unfold DeleteDashBoard. apply emits_only_bind.
    + apply emits_only_GetDashboard.
    + intros [dashRes [e|]]; [apply emits_only_ret|].
      apply emits_only_bind.
      * apply emits_only_httpRequest. apply session_request_DELETE.
      * intros [? ?]. apply emits_only_ret.
Qed.

(** X18: Whatever calls are made on a session, in whatever order and however
    each of them ends, the log only grows, and every request added carries
    the JSON content type as its only header, uses GET, POST or DELETE, and
    goes to a URL under the session's base URL. *)
Theorem run_calls_emits_only (cs : list call) :
  emits_only (session_request s) (run_calls s cs).
Proof.
  induction cs as [|c cs IH]; simpl.
  - apply emits_only_ret.
  - apply emits_only_bind; [apply emits_only_run_call | intros _; exact IH].
Qed.

(** X19: The session deletes only when asked to: a sequence of calls with no
    [DeleteDashBoard] among them dispatches no DELETE request. *)
Theorem no_DELETE_unless_asked (cs : list call) :
  forallb (fun c => negb (call_deletes c)) cs = true ->
  emits_only not_DELETE (run_calls s cs).
Proof.
  induction cs as [|c cs IH]; simpl; intros Hcs.
  - apply emits_only_ret.
  - apply andb_prop in Hcs. destruct Hcs as [Hc Hcs].
    apply emits_only_bind; [|intros _; now apply IH].
    destruct c as [| db overwrite | name | name]; simpl in *;
      try discriminate;
      (apply emits_only_bind; [|intros; apply emits_only_ret]).
    + unfold Login. apply emits_only_bind.
      * now apply emits_only_httpRequest.
      * intros [? ?]. apply emits_only_ret.
    + unfold UpdateDashboard. apply emits_only_bind.
      * now apply emits_only_httpRequest.
      * intros [? ?]. apply emits_only_ret.
    + unfold GetDashboard. apply emits_only_bind.
      * now apply emits_only_httpRequest.
      * intros [body [e|]]; [apply emits_only_ret|].
        destruct body as [b|].
        -- destruct (Decode_DashboardResult b zero_DashboardResult).
           apply emits_only_ret.
        -- intros w. exists []. simpl. now rewrite app_nil_r.
Qed.

End Operations.

(** * The further properties at work on the demo service *)

(** A dashboard with one row, then a row and a templating block more. *)
Lemma apply_edits_rows_as_built_witness :
  Forall row_as_built
    (Rows (apply_edits demo_session
             (AddRowPanel demo_session (GetDefaultDashBoard "demo")
                "p0" "SELECT 0")
             [EditRow "p1" "SELECT 1";
              EditTemplating ["host"] "cpu.load" "Test"])).
Proof.
  apply (apply_edits_rows_as_built demo_session).
  simpl. constructor; [apply GetDefaultRow_as_built | constructor].
Defined.

Lemma GetDefaultTemplate_inj_witness :
  "host" = "host" /\ "cpu.load" = "cpu.load" /\ "Test" = "Test".
Proof.
  exact (GetDefaultTemplate_inj "host" "cpu.load" "Test"
           "host" "cpu.load" "Test" eq_refl).
Defined.

Lemma Error_inj_witness :
  {| Code := 404; Description := "Dashboard not found" |}
  = {| Code := 404; Description := "Dashboard not found" |}.
Proof.
  exact (Error_inj {| Code := 404; Description := "Dashboard not found" |}
           {| Code := 404; Description := "Dashboard not found" |} eq_refl).
Defined.

(** The 404 of the demo service: no body beside the error. *)
Lemma httpRequest_result_xor_error_witness :
  (@None string = None
   /\ Some (GrafanaErr {| Code := 404;
                          Description := "Dashboard not found" |}) <> None
   /\ forall response jar',
        demo_Do (client demo_session) initial_world
          (json_request "GET"
             "http://grafana:3000/api/dashboards/db/missing" None)
        = (DoResponse response, jar') ->
        StatusCode response <> 200)
  \/ (Some (GrafanaErr {| Code := 404;
                          Description := "Dashboard not found" |}) = None
      /\ exists response jar',
           demo_Do (client demo_session) initial_world
             (json_request "GET"
                "http://grafana:3000/api/dashboards/db/missing" None)
           = (DoResponse response, jar')
           /\ StatusCode response = 200
           /\ None = Some (ResponseBody response)).
Proof.
  exact (@httpRequest_result_xor_error demo_platform demo_session "GET"
           "http://grafana:3000/api/dashboards/db/missing" None
           initial_world _ _ _ eq_refl).
Defined.

(** The 404 of the demo service reads [HTTP 404: Dashboard not found]. *)
Lemma httpRequest_error_text_witness :
  Error {| Code := 404; Description := "Dashboard not found" |}
  = "HTTP 404: Dashboard not found".
Proof.
  exact (@httpRequest_error_text demo_platform demo_session "GET"
           "http://grafana:3000/api/dashboards/db/missing" None
           initial_world _ None
           {| Code := 404; Description := "Dashboard not found" |}
           eq_refl).
Defined.

Lemma GetDashboard_GrafanaError_zero_witness :
  zero_DashboardResult = zero_DashboardResult.
Proof.
  exact (@GetDashboard_GrafanaError_zero demo_platform demo_session
           "missing" initial_world _ zero_DashboardResult
           {| Code := 404; Description := "Dashboard not found" |}
           eq_refl).
Defined.

(** The dashboard [demo] decodes; the answer to a GET of [demo-1] is a 200
    whose body does not, and the decoder's error comes back. *)
Lemma GetDashboard_200_witness :
  @GetDashboard demo_platform demo_session "demo-1" initial_world
  = Returned
      (zero_DashboardResult,
       Some (JsonErr "invalid character looking for beginning of value"))
      (after initial_world
         (json_request "GET" "http://grafana:3000/api/dashboards/db/demo-1"
            None) []).
Proof.
  refine (@GetDashboard_200 demo_platform demo_session "demo-1"
            initial_world
            {| StatusCode := 200;
               ResponseBody := message_envelope "Dashboard deleted" |}
            [] zero_DashboardResult
            (Some "invalid character looking for beginning of value")
            eq_refl eq_refl eq_refl eq_refl).
Defined.

(** The dashboard [demo] has the slug [demo-1]: the DELETE goes there. *)
Lemma DeleteDashBoard_uses_slug_witness :
  exists result err w2,
    @httpRequest demo_platform demo_session "DELETE"
      "http://grafana:3000/api/dashboards/db/demo-1" None
      (after initial_world
         (json_request "GET" "http://grafana:3000/api/dashboards/db/demo"
            None) [])
    = Returned (result, err) w2
    /\ @DeleteDashBoard demo_platform demo_session "demo" initial_world
       = Returned err w2
    /\ dispatched w2
       = [json_request "GET" "http://grafana:3000/api/dashboards/db/demo"
            None;
          json_request "DELETE"
            "http://grafana:3000/api/dashboards/db/demo-1" None].
Proof.
  exact (@DeleteDashBoard_uses_slug demo_platform demo_session "demo"
           initial_world _
           (fst (demo_Decode_DashboardResult "demo" zero_DashboardResult))
           eq_refl eq_refl).
Defined.

(** The login of [admin] is answered 200 and leaves the cookie. *)
Lemma Login_nil_iff_200_witness :
  exists err,
    @Login demo_platform demo_session initial_world
    = Returned err
        (after initial_world
           (json_request "POST" "http://grafana:3000/login"
              (Some (@Marshal_UserInfo demo_platform
                       {| User := "admin"; Email := EmptyString;
                          Password := "admin" |})))
           ["grafana_sess"])
    /\ (err = None
        <-> exists response,
              DoResponse
                {| StatusCode := 200;
                   ResponseBody := message_envelope "Logged in" |}
              = DoResponse response
              /\ StatusCode response = 200).
Proof.
  exact (@Login_nil_iff_200 demo_platform demo_session initial_world
           eq_refl).
Defined.

(** The demo service has no upload path: the update is answered 404. *)
Lemma UpdateDashboard_exchange_witness :
  exists err,
    @UpdateDashboard demo_platform demo_encoder demo_session
      (GetDefaultDashBoard "demo") true initial_world
    = Returned err
        (after initial_world
           (json_request "POST" "http://grafana:3000/api/dashboards/db"
              (Some (@Marshal_DashboardUploader demo_encoder
                       {| UploadDashboard := GetDefaultDashBoard "demo";
                          Overwrite := true |})))
           [])
    /\ (err = None
        <-> exists response,
              DoResponse
                {| StatusCode := 404;
                   ResponseBody := message_envelope "Dashboard not found" |}
              = DoResponse response
              /\ StatusCode response = 200).
Proof.
  exact (@UpdateDashboard_exchange demo_platform demo_encoder demo_session
           (GetDefaultDashBoard "demo") true initial_world eq_refl).
Defined.

(** A login, an upload and a lookup send no DELETE. *)
Lemma no_DELETE_unless_asked_witness :
  emits_only not_DELETE
    (@run_calls demo_platform demo_encoder demo_session
       [CallLogin; CallUpdate (GetDefaultDashBoard "demo") true;
        CallGet "demo"]).
Proof.
  exact (@no_DELETE_unless_asked demo_platform demo_encoder demo_session
           [CallLogin; CallUpdate (GetDefaultDashBoard "demo") true;
            CallGet "demo"] eq_refl).
Defined.
